(** * services vpc-peerings connect

  A shallow embedding of
  [google-cloud-sdk/lib/surface/services/vpc_peerings/connect.py]:
  the [Connect] command ([Args], [Run]) and [_GetProjectNumber].

  The command is a straight line of calls into collaborators that live
  outside the file (the property store, the project resolver, the peering
  client, the operation printer, the status logger).  Those are taken as
  parameters, bundled in the record [Services]; every call [Run] makes is
  recorded in a log, so that "is called", "is never called" and "is called
  before" are statements about that log. *)

From Stdlib Require Import String Ascii List Bool ZArith.
Import ListNotations.
Open Scope string_scope.

(** ** Python strings

  The command line reaches the command as byte strings; [string] is the
  model.  Only the three string operations the command uses are embedded:
  [str.split] with a one-character separator, [str.format] with the single
  positional field [{0}], and concatenation. *)

Module PyStr.

(** [s.split(sep)] for a separator of length one: the pieces between the
    occurrences of [sep], in order, empty pieces included; never the empty
    list. *)
Fixpoint split (sep : ascii) (s : string) : list string :=
  match s with
  | EmptyString => [EmptyString]
  | String c rest =>
      if Ascii.eqb c sep then EmptyString :: split sep rest
      else match split sep rest with
           | [] => [String c EmptyString]
           | piece :: pieces => String c piece :: pieces
           end
  end.

(** [sep.join(pieces)]. *)
Fixpoint join (sep : ascii) (pieces : list string) : string :=
  match pieces with
  | [] => EmptyString
  | [piece] => piece
  | piece :: more => piece ++ String sep (join sep more)
  end.

(** Does the character occur in the string? *)
Fixpoint occurs (c : ascii) (s : string) : bool :=
  match s with
  | EmptyString => false
  | String d rest => Ascii.eqb d c || occurs c rest
  end.

(** Number of occurrences of a character. *)
Fixpoint count (c : ascii) (s : string) : nat :=
  match s with
  | EmptyString => 0
  | String d rest => (if Ascii.eqb d c then 1 else 0) + count c rest
  end.

(** [template.format(arg)] for templates whose only replacement field is
    [{0}]: every [{0}] is replaced by [arg], which is not scanned again. *)
Fixpoint format (template arg : string) : string :=
  match template with
  | EmptyString => EmptyString
  | String "{" (String "0" (String "}" rest)) => arg ++ format rest arg
  | String c rest => String c (format rest arg)
  end.

(** [needle in hay]. *)
Definition contains (needle hay : string) : Prop :=
  exists before after, hay = before ++ needle ++ after.

End PyStr.

(** ** Outcomes and the call log *)

(** What a call can raise.  [RequiredPropertyError] is the configuration
  error of the property store, [ArgumentError] the parser's complaint
  about a flag; everything a remote collaborator raises is carried in
  [Remote]. *)
Inductive Exn (X : Type) : Type :=
| RequiredPropertyError (property : string)
| ArgumentError (flag : string)
| Remote (x : X).
Arguments RequiredPropertyError {X} property.
Arguments ArgumentError {X} flag.
Arguments Remote {X} x.

(** A call either returns or raises. *)
Inductive Outcome (X A : Type) : Type :=
| Returns (a : A)
| Raises (e : Exn X).
Arguments Returns {X A} a.
Arguments Raises {X A} e.

(** The calls the command makes to its collaborators, with their
  arguments. *)
Inductive Event (ProjectRef Operation : Type) : Type :=
| EvParseProject (project_id : string)
| EvProjectsGet (ref : ProjectRef)
| EvPeerApiCall (project_number : Z) (service network : string)
  (ranges : list string)
| EvWaitOperation (name : string)
| EvPrintOperation (op : Operation)
| EvStatusPrint (msg : string).
Arguments EvParseProject {ProjectRef Operation} project_id.
Arguments EvProjectsGet {ProjectRef Operation} ref.
Arguments EvPeerApiCall {ProjectRef Operation} project_number service network
ranges.
Arguments EvWaitOperation {ProjectRef Operation} name.
Arguments EvPrintOperation {ProjectRef Operation} op.
Arguments EvStatusPrint {ProjectRef Operation} msg.

(** The collaborators.  [W] is the state of everything outside the
  command (the remote services, the configuration); a call takes the
  state it finds and leaves the state it made.  [core_project] reads the
  active project of the ambient configuration. *)
Record Services (W X ProjectRef Project Operation : Type) : Type := {
core_project : W -> option string;
ParseProject : string -> W -> Outcome X ProjectRef * W;
projects_api_Get : ProjectRef -> W -> Outcome X Project * W;
projectNumber : Project -> Z;
PeerApiCall :
  Z -> string -> string -> list string -> W -> Outcome X Operation * W;
WaitOperation : string -> W -> Outcome X Operation * W;
PrintOperation : Operation -> W -> Outcome X unit * W;
name : Operation -> string
}.
Arguments core_project {W X ProjectRef Project Operation} _ _.
Arguments ParseProject {W X ProjectRef Project Operation} _ _ _.
Arguments projects_api_Get {W X ProjectRef Project Operation} _ _ _.
Arguments projectNumber {W X ProjectRef Project Operation} _ _.
Arguments PeerApiCall {W X ProjectRef Project Operation} _ _ _ _ _ _.
Arguments WaitOperation {W X ProjectRef Project Operation} _ _ _.
Arguments PrintOperation {W X ProjectRef Project Operation} _ _ _.
Arguments name {W X ProjectRef Project Operation} _ _.

(** The state the command runs in: the outside world and the log of the
  calls made so far, oldest first. *)
Record State (W ProjectRef Operation : Type) : Type := {
world : W;
log : list (Event ProjectRef Operation)
}.
Arguments Build_State {W ProjectRef Operation} world log.
Arguments world {W ProjectRef Operation} _.
Arguments log {W ProjectRef Operation} _.

(** The parsed command line, [argparse.Namespace]. *)
Record Namespace : Type := {
network : string;
service : string;
reserved_ranges : string;
async : bool
}.

(** ** The command *)

Definition OP_BASE_CMD : string :=
"gcloud alpha services vpc-peerings operations ".
Definition OP_WAIT_CMD : string := OP_BASE_CMD ++ "wait {0}".

Definition _SERVICE_HELP : string := "The service to connect to".
Definition _NETWORK_HELP : string :=
"The network in the current project to be peered with the   service".
Definition _RESERVED_RANGES_HELP : string :=
"The reserved IP CIDR ranges for service to use".

(** The template of the status line of the asynchronous path (two adjacent
  literals in the source; character 10 is the line feed). *)
Definition ASYNC_STATUS : string :=
"Asynchronous operation is in progress... "
++ "Use the following command to wait for its "
++ "completion:" ++ String (ascii_of_nat 10) " {0}".

Section Command.
Context {W X ProjectRef Project Operation : Type}.
Variable svc : Services W X ProjectRef Project Operation.

(** Computations of the command: state passing, with exceptions. *)
Definition M (A : Type) : Type :=
  State W ProjectRef Operation ->
  Outcome X A * State W ProjectRef Operation.

Definition ret {A} (a : A) : M A := fun st => (Returns a, st).

Definition bind {A B} (m : M A) (k : A -> M B) : M B :=
  fun st =>
    match m st with
    | (Returns a, st') => k a st'
    | (Raises e, st') => (Raises e, st')
    end.

(** A call to a collaborator: the call is logged, then it acts on the
    world. *)
Definition call {A} (ev : Event ProjectRef Operation)
  (f : W -> Outcome X A * W) : M A :=
  fun st =>
    let (r, w') := f (world st) in
    (r, Build_State w' (log st ++ [ev])).

(** [log.status.Print(msg)]: a line on the status stream. *)
Definition status_Print (msg : string) : M unit :=
  call (EvStatusPrint msg) (fun w => (Returns tt, w)).

Local Notation "x <- m ;; k" := (bind m (fun x => k))
  (at level 61, m at next level, right associativity).
Local Notation "m ;;; k" := (bind m (fun _ => k))
  (at level 61, right associativity).

(** Modelled from the spec: [properties.VALUES.core.project.Get(required=True)]
    of [googlecloudsdk.core.properties], which is not part of the file.  The
    spec: "Resolve the current project (from ambient configuration) to a
    project identifier; fail with a configuration error if no project is
    set."  Reading the property calls no collaborator and leaves the world
    as it is. *)
Definition core_project_Get_required : M string :=
  fun st =>
    match core_project svc (world st) with
    | Some project => (Returns project, st)
    | None => (Raises (RequiredPropertyError "project"), st)
    end.

Definition _GetProjectNumber (project_id : string) : M Z :=
  ref <- call (EvParseProject project_id) (ParseProject svc project_id) ;;
  project <- call (EvProjectsGet ref) (projects_api_Get svc ref) ;;
  ret (projectNumber svc project).

Definition Run (args : Namespace) : M unit :=
  project <- core_project_Get_required ;;
  project_number <- _GetProjectNumber project ;;
  let ranges := PyStr.split "," (reserved_ranges args) in
  op <- call
          (EvPeerApiCall project_number (service args) (network args) ranges)
          (PeerApiCall svc project_number (service args) (network args)
             ranges) ;;
  if async args then
    let cmd := PyStr.format OP_WAIT_CMD (name svc op) in
    status_Print (PyStr.format ASYNC_STATUS cmd) ;;;
    ret tt
  else
    op <- call (EvWaitOperation (name svc op))
            (WaitOperation svc (name svc op)) ;;
    call (EvPrintOperation op) (PrintOperation svc op).

(** The command started in a world, with an empty log. *)
Definition invoke_Run (args : Namespace) (w : W) :
  Outcome X unit * State W ProjectRef Operation :=
  Run args (Build_State w []).

End Command.

(** ** Reading the log *)

Section Log.
Context {ProjectRef Operation : Type}.

(** The peering-connect requests of a log, with their four arguments. *)
Fixpoint peer_requests (l : list (Event ProjectRef Operation)) :
  list (Z * string * string * list string) :=
  match l with
  | [] => []
  | EvPeerApiCall n s nw rs :: l' => (n, s, nw, rs) :: peer_requests l'
  | _ :: l' => peer_requests l'
  end.

(** The identifiers handed to [projects_util.ParseProject]. *)
Fixpoint parsed_projects (l : list (Event ProjectRef Operation)) :
  list string :=
  match l with
  | [] => []
  | EvParseProject project_id :: l' => project_id :: parsed_projects l'
  | _ :: l' => parsed_projects l'
  end.

(** The references looked up with [projects_api.Get]. *)
Fixpoint project_lookups (l : list (Event ProjectRef Operation)) :
  list ProjectRef :=
  match l with
  | [] => []
  | EvProjectsGet ref :: l' => ref :: project_lookups l'
  | _ :: l' => project_lookups l'
  end.

(** A look at the state of an operation: polling it, or printing it. *)
Definition is_status_check (ev : Event ProjectRef Operation) : bool :=
  match ev with
  | EvWaitOperation _ | EvPrintOperation _ => true
  | _ => false
  end.

End Log.

(** ** The text of the asynchronous path, as the user reads it *)

(** The command a user runs to wait for the operation called [op_name]. *)
Definition wait_command (op_name : string) : string :=
  "gcloud alpha services vpc-peerings operations wait " ++ op_name.

(** The status line: two sentences, a line feed, a blank, the command. *)
Definition async_line (op_name : string) : string :=
  "Asynchronous operation is in progress... Use the following command to wait for its completion:"
  ++ String (ascii_of_nat 10) (String " " (wait_command op_name)).

(** ** What is assumed of the collaborators *)

Section Contracts.
Context {W X ProjectRef Project Operation : Type}.
Variable svc : Services W X ProjectRef Project Operation.

(** In world [w] the active project is [project_id], it parses to [ref] and
    the lookup of [ref] returns [project], leaving world [w2]. *)
Definition resolves (w : W) (project_id : string) (ref : ProjectRef)
  (project : Project) (w2 : W) : Prop :=
  core_project svc w = Some project_id /\
  exists w1,
    ParseProject svc project_id w = (Returns ref, w1) /\
    projects_api_Get svc ref w1 = (Returns project, w2).

(** The outcome of the peering-connect request the command makes for
    [args] once the project is resolved. *)
Definition peering_answer (args : Namespace) (project : Project) (w2 : W) :
  Outcome X Operation * W :=
  PeerApiCall svc (projectNumber svc project) (service args) (network args)
    (PyStr.split "," (reserved_ranges args)) w2.

(** The peering-connect request as it shows in the log. *)
Definition peer_request (args : Namespace) (project : Project) :
  Event ProjectRef Operation :=
  EvPeerApiCall (projectNumber svc project) (service args) (network args)
    (PyStr.split "," (reserved_ranges args)).

(** The calls made up to and including the peering-connect request. *)
Definition request_log (args : Namespace) (project_id : string)
  (ref : ProjectRef) (project : Project) :
  list (Event ProjectRef Operation) :=
  [EvParseProject project_id; EvProjectsGet ref; peer_request args project].

(** Modelled from the spec: [peering.WaitOperation] of
    [googlecloudsdk.api_lib.services.peering], which is not part of the
    file.  The spec: "given an operation name, polls to terminal state";
    cadence and backoff are "opaque to this component".  So all that is
    known of it is that an operation it returns is in a terminal state,
    whatever [terminal] is for the service. *)
Definition polls_to_terminal (terminal : Operation -> bool) : Prop :=
  forall op_name w op w',
    WaitOperation svc op_name w = (Returns op, w') -> terminal op = true.

(** The same collaborators, with other means of checking on an
    operation. *)
Definition with_status_checks
  (wait : string -> W -> Outcome X Operation * W)
  (print : Operation -> W -> Outcome X unit * W) :
  Services W X ProjectRef Project Operation :=
  {| core_project := core_project svc;
     ParseProject := ParseProject svc;
     projects_api_Get := projects_api_Get svc;
     projectNumber := projectNumber svc;
     PeerApiCall := PeerApiCall svc;
     WaitOperation := wait;
     PrintOperation := print;
     name := name svc |}.

End Contracts.

(** ** The flags *)

(** One [parser.add_argument] declaration. *)
Record Argument : Type := {
  flag : string;
  metavar : option string;
  required : bool;
  store_true : bool;
  help : string
}.

(** The parser calliope hands to [Args]: the declarations made so far. *)
Definition Parser : Type := list Argument.

Definition add_argument (parser : Parser) (name metavar : string)
  (is_required : bool) (help_text : string) : Parser :=
  (parser ++ [ {| flag := name; metavar := Some metavar;
                  required := is_required; store_true := false;
                  help := help_text |} ])%list.

(** Modelled from the spec: [base.ASYNC_FLAG] of [googlecloudsdk.calliope.base],
    which is not part of the file.  The spec: "--async (optional boolean;
    default synchronous)".  Its help text is not modelled. *)
Definition ASYNC_FLAG_AddToParser (parser : Parser) : Parser :=
  (parser ++ [ {| flag := "--async"; metavar := None; required := false;
                  store_true := true; help := EmptyString |} ])%list.

Definition Args (parser : Parser) : Parser :=
  let parser := add_argument parser "--network" "NETWORK" true _NETWORK_HELP in
  let parser := add_argument parser "--service" "SERVICE" true _SERVICE_HELP in
  let parser :=
    add_argument parser "--reserved-ranges" "RESERVED_RANGES" true
      _RESERVED_RANGES_HELP in
  ASYNC_FLAG_AddToParser parser.

(** A command line: the flags given, each with its value ([None] for a flag
    given without one). *)
Definition CommandLine : Type := list (string * option string).

Definition given (cmdline : CommandLine) (f : string) : bool :=
  existsb (fun fv => String.eqb (fst fv) f) cmdline.

Definition value_of (cmdline : CommandLine) (f : string) : string :=
  match find (fun fv => String.eqb (fst fv) f) cmdline with
  | Some (_, Some v) => v
  | _ => EmptyString
  end.

(** Modelled from the spec: the argument validation of the parser (argparse
    under calliope), which is not part of the file.  The spec: "Omitting any
    of --network, --service, --reserved-ranges causes argument validation to
    fail": validation fails on the first declared argument that is required
    and not given. *)
Definition missing_required (parser : Parser) (cmdline : CommandLine) :
  option Argument :=
  find (fun a => required a && negb (given cmdline (flag a))) parser.

(** Modelled from the spec: the namespace the parser builds once validation
    has passed.  (A flag that is not given reads as the empty string here;
    the three flags read as strings are required, so validation has failed
    by then.) *)
Definition namespace_of (cmdline : CommandLine) : Namespace :=
  {| network := value_of cmdline "--network";
     service := value_of cmdline "--service";
     reserved_ranges := value_of cmdline "--reserved-ranges";
     async := given cmdline "--async" |}.

(** Modelled from the spec: the way calliope runs a command, which is not
    part of the file.  The spec: "all three required arguments must be
    present before the call is attempted -- enforced by the argument
    parser": [Args] declares the flags, the command line is validated
    against them, and only then [Run] is called. *)
Definition execute {W X ProjectRef Project Operation : Type}
  (svc : Services W X ProjectRef Project Operation)
  (cmdline : CommandLine) (w : W) :
  Outcome X unit * State W ProjectRef Operation :=
  match missing_required (Args []) cmdline with
  | Some a => (Raises (ArgumentError (flag a)), Build_State w [])
  | None => invoke_Run svc (namespace_of cmdline) w
  end.

(** ** A small world to run the command in

    One remote project, ["my-project"], number 424242; the state of the
    world is the number of remote requests served so far. *)

Record DemoOperation : Type := {
  demo_name : string;
  demo_done : bool
}.

Definition demo (active : option string) :
  Services nat string string Z DemoOperation :=
  {| core_project := fun _ => active;
     ParseProject := fun project_id w =>
       (Returns ("projects/" ++ project_id), w);
     projects_api_Get := fun ref w =>
       if String.eqb ref "projects/my-project"
       then (Returns 424242%Z, S w)
       else (Raises (Remote "NOT_FOUND"), S w);
     projectNumber := fun project => project;
     PeerApiCall := fun _ _ _ _ w =>
       (Returns {| demo_name := "operations/pr-7"; demo_done := false |},
        S w);
     WaitOperation := fun op_name w =>
       (Returns {| demo_name := op_name; demo_done := true |}, S w);
     PrintOperation := fun _ w => (Returns tt, w);
     name := demo_name |}.

Definition demo_args (ranges : string) (async : bool) : Namespace :=
  {| network := "my-network";
     service := "your-service";
     reserved_ranges := ranges;
     async := async |}.

(** ** The order of the calls *)

Section Shape.
Context {ProjectRef Operation : Type}.

(** The lines printed on the status stream. *)
Fixpoint status_lines (l : list (Event ProjectRef Operation)) : list string :=
  match l with
  | [] => []
  | EvStatusPrint msg :: l' => msg :: status_lines l'
  | _ :: l' => status_lines l'
  end.

(** The names polled with [peering.WaitOperation]. *)
Fixpoint polled (l : list (Event ProjectRef Operation)) : list string :=
  match l with
  | [] => []
  | EvWaitOperation op_name :: l' => op_name :: polled l'
  | _ :: l' => polled l'
  end.

(** The operations handed to [services_util.PrintOperation]. *)
Fixpoint printed (l : list (Event ProjectRef Operation)) : list Operation :=
  match l with
  | [] => []
  | EvPrintOperation op :: l' => op :: printed l'
  | _ :: l' => printed l'
  end.

(** The logs that follow the text of [Run] from its first line, stopping
    anywhere: parse, lookup, request, and then either the status line (only
    with [--async]) or the poll and the print (only without). *)
Definition run_shape (is_async : bool)
  (l : list (Event ProjectRef Operation)) : bool :=
  match l with
  | [] => true
  | [EvParseProject _] => true
  | [EvParseProject _; EvProjectsGet _] => true
  | [EvParseProject _; EvProjectsGet _; EvPeerApiCall _ _ _ _] => true
  | [EvParseProject _; EvProjectsGet _; EvPeerApiCall _ _ _ _;
     EvStatusPrint _] => is_async
  | [EvParseProject _; EvProjectsGet _; EvPeerApiCall _ _ _ _;
     EvWaitOperation _] => negb is_async
  | [EvParseProject _; EvProjectsGet _; EvPeerApiCall _ _ _ _;
     EvWaitOperation _; EvPrintOperation _] => negb is_async
  | _ => false
  end.

End Shape.

(** The same arguments with another [--async]. *)
Definition with_async (args : Namespace) (is_async : bool) : Namespace :=
  {| network := network args;
     service := service args;
     reserved_ranges := reserved_ranges args;
     async := is_async |}.

(** ** What the services themselves see *)

Section Recording.
Context {W X ProjectRef Project Operation : Type}.
Variable svc : Services W X ProjectRef Project Operation.

(** The same collaborators, each keeping a record of the calls it really
    receives, with the arguments it receives them with: the world is paired
    with that record, and every application of a collaborator adds its entry.
    Nothing else changes. *)
Definition recording :
  Services (W * list (Event ProjectRef Operation)) X ProjectRef Project
    Operation :=
  {| core_project := fun wr => core_project svc (fst wr);
     ParseProject := fun project_id wr =>
       let (r, w') := ParseProject svc project_id (fst wr) in
       (r, (w', (snd wr ++ [EvParseProject project_id])%list));
     projects_api_Get := fun ref wr =>
       let (r, w') := projects_api_Get svc ref (fst wr) in
       (r, (w', (snd wr ++ [EvProjectsGet ref])%list));
     projectNumber := projectNumber svc;
     PeerApiCall := fun number service_name network_name ranges wr =>
       let (r, w') :=
         PeerApiCall svc number service_name network_name ranges (fst wr) in
       (r, (w', (snd wr
                 ++ [EvPeerApiCall number service_name network_name
                       ranges])%list));
     WaitOperation := fun op_name wr =>
       let (r, w') := WaitOperation svc op_name (fst wr) in
       (r, (w', (snd wr ++ [EvWaitOperation op_name])%list));
     PrintOperation := fun op wr =>
       let (r, w') := PrintOperation svc op (fst wr) in
       (r, (w', (snd wr ++ [EvPrintOperation op])%list));
     name := name svc |}.

(** The calls the collaborators really receive in one invocation, in the
    order they receive them. *)
Definition real_calls (args : Namespace) (w : W) :
  list (Event ProjectRef Operation) :=
  snd (world (snd (invoke_Run recording args (w, [])))).

(** The entries of a log that are calls to a collaborator: all but the
    lines of the status stream. *)
Fixpoint service_calls (l : list (Event ProjectRef Operation)) :
  list (Event ProjectRef Operation) :=
  match l with
  | [] => []
  | EvStatusPrint _ :: l' => service_calls l'
  | ev :: l' => ev :: service_calls l'
  end.

End Recording.

(** A stricter world: the empty project identifier does not parse, and the
    peering service rejects a request with an empty range. *)
Definition strict_demo (active : option string) :
  Services nat string string Z DemoOperation :=
  {| core_project := core_project (demo active);
     ParseProject := fun project_id w =>
       if String.eqb project_id ""
       then (Raises (Remote "INVALID_PROJECT"), w)
       else ParseProject (demo active) project_id w;
     projects_api_Get := projects_api_Get (demo active);
     projectNumber := projectNumber (demo active);
     PeerApiCall := fun number service_name network_name ranges w =>
       if existsb (String.eqb "") ranges
       then (Raises (Remote "INVALID_ARGUMENT"), S w)
       else PeerApiCall (demo active) number service_name network_name
              ranges w;
     WaitOperation := WaitOperation (demo active);
     PrintOperation := PrintOperation (demo active);
     name := name (demo active) |}.

(** ** Basic facts about [split] *)

Section SplitFacts.
Import PyStr.
Variable sep : ascii.

Lemma split_nonempty (s : string) : split sep s <> [].
Proof.
  destruct s as [|c rest]; simpl; [discriminate|].
  destruct (Ascii.eqb c sep); [discriminate|].
  destruct (split sep rest); discriminate.
Qed.

Lemma split_cons (c : ascii) (rest : string) :
  Ascii.eqb c sep = false ->
  exists piece pieces,
    split sep rest = piece :: pieces /\
    split sep (String c rest) = String c piece :: pieces.
Proof.
  intros Hc. simpl. rewrite Hc.
  destruct (split sep rest) as [|piece pieces] eqn:E.
  - now apply split_nonempty in E.
  - now exists piece, pieces.
Qed.

(** Nothing is trimmed, dropped or merged: joining the pieces with the
    separator gives the string back. *)
Lemma join_split (s : string) : join sep (split sep s) = s.
Proof.
  induction s as [|c rest IH]; [reflexivity|].
  destruct (Ascii.eqb c sep) eqn:Hc.
  - simpl. rewrite Hc.
    apply Ascii.eqb_eq in Hc. subst c.
    destruct (split sep rest) as [|piece pieces] eqn:E.
    + now apply split_nonempty in E.
    + change (join sep (EmptyString :: piece :: pieces))
        with (String sep (join sep (piece :: pieces))).
      now rewrite IH.
  - destruct (split_cons c rest Hc) as (piece & pieces & E & E').
    rewrite E'. rewrite E in IH.
    destruct pieces as [|p ps]; simpl in *; now rewrite IH.
Qed.

(** No piece contains the separator. *)
Lemma split_pieces_sep_free (s : string) :
  Forall (fun piece => occurs sep piece = false) (split sep s).
Proof.
  induction s as [|c rest IH]; [repeat constructor|].
  destruct (Ascii.eqb c sep) eqn:Hc.
  - simpl. rewrite Hc. constructor; [reflexivity|assumption].
  - destruct (split_cons c rest Hc) as (piece & pieces & E & E').
    rewrite E'. rewrite E in IH. inversion IH; subst.
    constructor; [|assumption]. simpl. now rewrite Hc.
Qed.

(** One piece more than there are separators. *)
Lemma length_split (s : string) :
  length (split sep s) = S (count sep s).
Proof.
  induction s as [|c rest IH]; [reflexivity|].
  destruct (Ascii.eqb c sep) eqn:Hc.
  - simpl. rewrite Hc. simpl. now rewrite IH.
  - destruct (split_cons c rest Hc) as (piece & pieces & E & E').
    rewrite E'. rewrite E in IH. simpl in *. now rewrite Hc.
Qed.

(** A string without the separator is its own single piece. *)
Lemma split_sep_free (s : string) :
  occurs sep s = false -> split sep s = [s].
Proof.
  induction s as [|c rest IH]; [reflexivity|].
  simpl. intros H. apply orb_false_elim in H as [Hc Hrest].
  rewrite Hc, (IH Hrest). reflexivity.
Qed.

(** [split] is the only way to cut a string into separator-free pieces
    that join back to it. *)
Lemma split_join (pieces : list string) :
  pieces <> [] ->
  Forall (fun piece => occurs sep piece = false) pieces ->
  split sep (join sep pieces) = pieces.
Proof.
  induction pieces as [|piece more IH]; [congruence|].
  intros _ Hfree. inversion Hfree as [|? ? Hpiece Hmore]; subst.
  destruct more as [|p ps].
  - simpl. now apply split_sep_free.
  - change (join sep (piece :: p :: ps))
      with (piece ++ String sep (join sep (p :: ps))).
    assert (IH' : split sep (join sep (p :: ps)) = p :: ps)
      by (apply IH; [discriminate|assumption]).
    clear IH Hfree Hmore.
    remember (join sep (p :: ps)) as tail eqn:Etail. clear Etail.
    induction piece as [|c rest IHp]; simpl.
    + rewrite Ascii.eqb_refl. now rewrite IH'.
    + simpl in Hpiece. apply orb_false_elim in Hpiece as [Hc Hrest].
      rewrite Hc. now rewrite (IHp Hrest).
Qed.

End SplitFacts.

(** ** The two templates *)

Lemma append_empty (s : string) : s ++ "" = s.
Proof. induction s as [|c s IH]; simpl; congruence. Qed.

Lemma format_OP_WAIT_CMD (op_name : string) :
  PyStr.format OP_WAIT_CMD op_name = wait_command op_name.
Proof.
  unfold wait_command. cbn. now rewrite append_empty.
Qed.

Lemma format_ASYNC_STATUS (cmd : string) :
  PyStr.format ASYNC_STATUS (PyStr.format OP_WAIT_CMD cmd) = async_line cmd.
Proof.
  rewrite format_OP_WAIT_CMD. unfold async_line.
  generalize (wait_command cmd) as c. intros c.
  cbn. now rewrite append_empty.
Qed.

Lemma async_line_contains (op_name : string) :
  PyStr.contains (wait_command op_name) (async_line op_name).
Proof.
  unfold async_line.
  exists ("Asynchronous operation is in progress... Use the following command to wait for its completion:"
          ++ String (ascii_of_nat 10) " "), "".
  rewrite append_empty. reflexivity.
Qed.

(** ** The command, step by step *)

Ltac step := cbn -[PyStr.format PyStr.split String.append].

Ltac run_command :=
  unfold invoke_Run, Run, _GetProjectNumber, core_project_Get_required,
    status_Print, bind, call, ret; step.

Section RunFacts.
Context {W X ProjectRef Project Operation : Type}.
Variable svc : Services W X ProjectRef Project Operation.
Variable args : Namespace.

(** No active project: the property read raises, nothing has been called. *)
Lemma Run_unset (w : W) :
  core_project svc w = None ->
  invoke_Run svc args w =
  (Raises (RequiredPropertyError "project"), Build_State w []).
Proof. intros Hnone. run_command. now rewrite Hnone. Qed.

(** With an active project, the command goes on as the project-number
    lookup does. *)
Lemma Run_lookup_raises (w : W) (project_id : string) (e : Exn X)
  (st' : State W ProjectRef Operation) :
  core_project svc w = Some project_id ->
  _GetProjectNumber svc project_id (Build_State w []) = (Raises e, st') ->
  invoke_Run svc args w = (Raises e, st').
Proof.
  intros Hsome Hlookup. unfold invoke_Run, Run.
  unfold bind at 1. unfold core_project_Get_required. simpl.
  rewrite Hsome. unfold bind at 1. now rewrite Hlookup.
Qed.

(** The lookup makes no call but its own two. *)
Lemma _GetProjectNumber_log (project_id : string) (w : W)
  (r : Outcome X Z) (st' : State W ProjectRef Operation) :
  _GetProjectNumber svc project_id (Build_State w []) = (r, st') ->
  peer_requests (log st') = [] /\
  (forall ev, In ev (log st') -> is_status_check ev = false).
Proof.
  unfold _GetProjectNumber, bind, call, ret. simpl.
  destruct (ParseProject svc project_id w) as [[ref|e] w1]; simpl.
  - destruct (projects_api_Get svc ref w1) as [[project|e] w2]; simpl;
      intros [= <- <-]; simpl; (split; [reflexivity|]);
      intros ev [<-|[<-|[]]]; reflexivity.
  - intros [= <- <-]; simpl. split; [reflexivity|].
    intros ev [<-|[]]; reflexivity.
Qed.

(** Once the project is resolved the request is made, and the rest of the
    command is decided by its answer. *)
Lemma Run_resolved (w : W) (project_id : string) (ref : ProjectRef)
  (project : Project) (w2 : W) :
  resolves svc w project_id ref project w2 ->
  invoke_Run svc args w =
  match peering_answer svc args project w2 with
  | (Raises e, w3) =>
      (Raises e, Build_State w3 (request_log svc args project_id ref project))
  | (Returns op, w3) =>
      if async args then
        (Returns tt,
         Build_State w3
           (request_log svc args project_id ref project
            ++ [EvStatusPrint (async_line (name svc op))]))
      else
        match WaitOperation svc (name svc op) w3 with
        | (Raises e, w4) =>
            (Raises e,
             Build_State w4
               (request_log svc args project_id ref project
                ++ [EvWaitOperation (name svc op)]))
        | (Returns final, w4) =>
            (fst (PrintOperation svc final w4),
             Build_State (snd (PrintOperation svc final w4))
               (request_log svc args project_id ref project
                ++ [EvWaitOperation (name svc op); EvPrintOperation final]))
        end
  end.
Proof.
  intros (Hsome & w1 & Hparse & Hget).
  unfold peering_answer, request_log, peer_request. run_command.
  rewrite Hsome. step. rewrite Hparse. step. rewrite Hget. step.
  destruct (PeerApiCall svc (projectNumber svc project) (service args)
              (network args) (PyStr.split "," (reserved_ranges args)) w2)
    as [[op|e] w3]; step; [|reflexivity].
  destruct (async args); step.
  - now rewrite format_ASYNC_STATUS.
  - destruct (WaitOperation svc (name svc op) w3) as [[final|e] w4]; step;
      [|reflexivity].
    now destruct (PrintOperation svc final w4) as [r w5].
Qed.

(** Whatever the answer, exactly one request is in the log. *)
Lemma Run_peer_requests (w : W) (project_id : string) (ref : ProjectRef)
  (project : Project) (w2 : W) :
  resolves svc w project_id ref project w2 ->
  peer_requests (log (snd (invoke_Run svc args w))) =
  [(projectNumber svc project, service args, network args,
    PyStr.split "," (reserved_ranges args))].
Proof.
  intros Hres. rewrite (Run_resolved _ _ _ _ _ Hres).
  destruct (peering_answer svc args project w2) as [[op|e] w3];
    [|reflexivity].
  destruct (async args); [reflexivity|].
  destruct (WaitOperation svc (name svc op) w3) as [[final|e] w4];
    reflexivity.
Qed.

End RunFacts.

(** ** The reserved ranges *)

(** C1.  Whatever string [--reserved-ranges] holds, the range sequence
    handed to [peering.PeerApiCall] is that string split on [","]: the
    command is decided by the answer of the request made with that sequence
    (and logs it so); the pieces joined with commas give the string back
    (nothing is trimmed, dropped or merged), no piece holds a comma, there
    is one piece more than there are commas, and no piece is checked.  For
    ["10.197.0.0/20,10.198.0.0/20"] the sequence is
    [["10.197.0.0/20"; "10.198.0.0/20"]]. *)
Theorem C1_ranges_are_split
  {W X ProjectRef Project Operation : Type}
  (svc : Services W X ProjectRef Project Operation) (args : Namespace)
  (w : W) (project_id : string) (ref : ProjectRef) (project : Project)
  (w2 : W) :
  resolves svc w project_id ref project w2 ->
  exists ranges,
    invoke_Run svc args w =
      match
        PeerApiCall svc (projectNumber svc project) (service args)
          (network args) ranges w2
      with
      | (Raises e, w3) =>
          (Raises e,
           Build_State w3 (request_log svc args project_id ref project))
      | (Returns op, w3) =>
          if async args then
            (Returns tt,
             Build_State w3
               (request_log svc args project_id ref project
                ++ [EvStatusPrint (async_line (name svc op))]))
          else
            match WaitOperation svc (name svc op) w3 with
            | (Raises e, w4) =>
                (Raises e,
                 Build_State w4
                   (request_log svc args project_id ref project
                    ++ [EvWaitOperation (name svc op)]))
            | (Returns final, w4) =>
                (fst (PrintOperation svc final w4),
                 Build_State (snd (PrintOperation svc final w4))
                   (request_log svc args project_id ref project
                    ++ [EvWaitOperation (name svc op);
                        EvPrintOperation final]))
            end
      end /\
    peer_requests (log (snd (invoke_Run svc args w))) =
      [(projectNumber svc project, service args, network args, ranges)] /\
    ranges = PyStr.split "," (reserved_ranges args) /\
    PyStr.join "," ranges = reserved_ranges args /\
    Forall (fun piece => PyStr.occurs "," piece = false) ranges /\
    length ranges = S (PyStr.count "," (reserved_ranges args)) /\
    (forall pieces,
        pieces <> [] ->
        Forall (fun piece => PyStr.occurs "," piece = false) pieces ->
        PyStr.join "," pieces = reserved_ranges args ->
        pieces = ranges) /\
    (reserved_ranges args = "10.197.0.0/20,10.198.0.0/20" ->
     ranges = ["10.197.0.0/20"; "10.198.0.0/20"]).
Proof.
  intros Hres. exists (PyStr.split "," (reserved_ranges args)).
  split; [exact (Run_resolved svc args w project_id ref project w2 Hres)|].
  split; [now apply Run_peer_requests with (project_id := project_id)
                                         (ref := ref) (w2 := w2)|].
  split; [reflexivity|].
  split; [apply join_split|].
  split; [apply split_pieces_sep_free|].
  split; [apply length_split|].
  split.
  - intros pieces Hne Hfree Hjoin. rewrite <- Hjoin.
    symmetry. now apply split_join.
  - intros ->. reflexivity.
Qed.

Lemma demo_resolves (w : nat) :
  resolves (demo (Some "my-project")) w "my-project" "projects/my-project"
    424242%Z (S w).
Proof. split; [reflexivity|]. exists w. split; reflexivity. Defined.

Lemma C1_ranges_are_split_witness :
  invoke_Run (demo (Some "my-project"))
    (demo_args "10.197.0.0/20,10.198.0.0/20" false) 0 =
  (Returns tt,
   Build_State 3
     [EvParseProject "my-project"; EvProjectsGet "projects/my-project";
      EvPeerApiCall 424242%Z "your-service" "my-network"
        ["10.197.0.0/20"; "10.198.0.0/20"];
      EvWaitOperation "operations/pr-7";
      EvPrintOperation
        {| demo_name := "operations/pr-7"; demo_done := true |}]).
Proof.
  destruct (C1_ranges_are_split (demo (Some "my-project"))
              (demo_args "10.197.0.0/20,10.198.0.0/20" false) 0
              "my-project" "projects/my-project" 424242%Z 1
              (demo_resolves 0))
    as (ranges & Hrun & _ & _ & _ & _ & _ & _ & Hexample).
  rewrite Hrun, (Hexample eq_refl). reflexivity.
Defined.

(** C9.  When the [--reserved-ranges] string holds no comma, the range
    sequence handed to [peering.PeerApiCall] has exactly one element, the
    string itself: the command is decided by the answer of the request made
    with that one-element sequence, and logs it so. *)
Theorem C9_no_comma_one_range
  {W X ProjectRef Project Operation : Type}
  (svc : Services W X ProjectRef Project Operation) (args : Namespace)
  (w : W) (project_id : string) (ref : ProjectRef) (project : Project)
  (w2 : W) :
  PyStr.occurs "," (reserved_ranges args) = false ->
  resolves svc w project_id ref project w2 ->
  PyStr.split "," (reserved_ranges args) = [reserved_ranges args] /\
  invoke_Run svc args w =
    match
      PeerApiCall svc (projectNumber svc project) (service args)
        (network args) [reserved_ranges args] w2
    with
    | (Raises e, w3) =>
        (Raises e,
         Build_State w3 (request_log svc args project_id ref project))
    | (Returns op, w3) =>
        if async args then
          (Returns tt,
           Build_State w3
             (request_log svc args project_id ref project
              ++ [EvStatusPrint (async_line (name svc op))]))
        else
          match WaitOperation svc (name svc op) w3 with
          | (Raises e, w4) =>
              (Raises e,
               Build_State w4
                 (request_log svc args project_id ref project
                  ++ [EvWaitOperation (name svc op)]))
          | (Returns final, w4) =>
              (fst (PrintOperation svc final w4),
               Build_State (snd (PrintOperation svc final w4))
                 (request_log svc args project_id ref project
                  ++ [EvWaitOperation (name svc op);
                      EvPrintOperation final]))
          end
    end /\
  peer_requests (log (snd (invoke_Run svc args w))) =
    [(projectNumber svc project, service args, network args,
      [reserved_ranges args])].
Proof.
  intros Hfree Hres.
  rewrite (Run_peer_requests svc args w project_id ref project w2 Hres).
  rewrite (Run_resolved svc args w project_id ref project w2 Hres).
  unfold peering_answer.
  rewrite (split_sep_free "," _ Hfree).
  repeat split; reflexivity.
Qed.

Lemma C9_no_comma_one_range_witness :
  invoke_Run (demo (Some "my-project")) (demo_args "10.197.0.0/20" true) 5 =
  (Returns tt,
   Build_State 7
     [EvParseProject "my-project"; EvProjectsGet "projects/my-project";
      EvPeerApiCall 424242%Z "your-service" "my-network" ["10.197.0.0/20"];
      EvStatusPrint (async_line "operations/pr-7")]).
Proof.
  destruct (C9_no_comma_one_range (demo (Some "my-project"))
              (demo_args "10.197.0.0/20" true) 5
              "my-project" "projects/my-project" 424242%Z 6 eq_refl
              (demo_resolves 5))
    as (_ & Hrun & _).
  rewrite Hrun. reflexivity.
Defined.

(** C10.  The empty [--reserved-ranges] string is not rejected by the
    command: it splits into the one-element sequence [[""]], and the
    peering-connect request is made with that sequence. *)
Theorem C10_empty_string_one_empty_range
  {W X ProjectRef Project Operation : Type}
  (svc : Services W X ProjectRef Project Operation) (args : Namespace)
  (w : W) (project_id : string) (ref : ProjectRef) (project : Project)
  (w2 : W) :
  reserved_ranges args = "" ->
  resolves svc w project_id ref project w2 ->
  PyStr.split "," (reserved_ranges args) = [""] /\
  peer_requests (log (snd (invoke_Run svc args w))) =
    [(projectNumber svc project, service args, network args, [""])] /\
  invoke_Run svc args w =
    match
      PeerApiCall svc (projectNumber svc project) (service args)
        (network args) [""] w2
    with
    | (Raises e, w3) =>
        (Raises e,
         Build_State w3 (request_log svc args project_id ref project))
    | (Returns op, w3) =>
        if async args then
          (Returns tt,
           Build_State w3
             (request_log svc args project_id ref project
              ++ [EvStatusPrint (async_line (name svc op))]))
        else
          match WaitOperation svc (name svc op) w3 with
          | (Raises e, w4) =>
              (Raises e,
               Build_State w4
                 (request_log svc args project_id ref project
                  ++ [EvWaitOperation (name svc op)]))
          | (Returns final, w4) =>
              (fst (PrintOperation svc final w4),
               Build_State (snd (PrintOperation svc final w4))
                 (request_log svc args project_id ref project
                  ++ [EvWaitOperation (name svc op);
                      EvPrintOperation final]))
          end
    end.
Proof.
  intros Hempty Hres.
  rewrite (Run_peer_requests svc args w project_id ref project w2 Hres).
  rewrite (Run_resolved svc args w project_id ref project w2 Hres).
  unfold peering_answer. rewrite Hempty.
  repeat split; reflexivity.
Qed.

Lemma C10_empty_string_one_empty_range_witness :
  peer_requests
    (log (snd (invoke_Run (demo (Some "my-project")) (demo_args "" false)
                 0))) =
  [(424242%Z, "your-service", "my-network", [""])].
Proof.
  apply (C10_empty_string_one_empty_range (demo (Some "my-project"))
           (demo_args "" false) 0
           "my-project" "projects/my-project" 424242%Z 1 eq_refl
           (demo_resolves 0)).
Defined.

(** ** The asynchronous and the blocking path *)

(** C2.  With [--async], once the peering-connect request has returned an
    operation, the command prints one status line, which holds the
    ready-to-run wait command ending in the operation's name, and returns:
    the log ends with that line, the world is the one the request left, and
    neither [peering.WaitOperation] nor [services_util.PrintOperation] has
    been called. *)
Theorem C2_async_prints_wait_command_and_returns
  {W X ProjectRef Project Operation : Type}
  (svc : Services W X ProjectRef Project Operation) (args : Namespace)
  (w : W) (project_id : string) (ref : ProjectRef) (project : Project)
  (w2 : W) (op : Operation) (w3 : W) :
  async args = true ->
  resolves svc w project_id ref project w2 ->
  peering_answer svc args project w2 = (Returns op, w3) ->
  exists line,
    invoke_Run svc args w =
      (Returns tt,
       Build_State w3
         [EvParseProject project_id; EvProjectsGet ref;
          peer_request svc args project; EvStatusPrint line]) /\
    line = PyStr.format ASYNC_STATUS
             (PyStr.format OP_WAIT_CMD (name svc op)) /\
    PyStr.contains
      ("gcloud alpha services vpc-peerings operations wait " ++ name svc op)
      line /\
    forallb (fun ev => negb (is_status_check ev))
      (log (snd (invoke_Run svc args w))) = true.
Proof.
  intros Hasync Hres Hanswer.
  exists (async_line (name svc op)).
  rewrite (Run_resolved svc args w project_id ref project w2 Hres).
  rewrite Hanswer, Hasync.
  split; [reflexivity|].
  split; [now rewrite format_ASYNC_STATUS|].
  split; [apply async_line_contains|reflexivity].
Qed.

Lemma C2_async_prints_wait_command_and_returns_witness :
  exists line,
    invoke_Run (demo (Some "my-project"))
      (demo_args "10.197.0.0/20,10.198.0.0/20" true) 0 =
      (Returns tt,
       Build_State 2
         [EvParseProject "my-project"; EvProjectsGet "projects/my-project";
          EvPeerApiCall 424242%Z "your-service" "my-network"
            ["10.197.0.0/20"; "10.198.0.0/20"];
          EvStatusPrint line]) /\
    PyStr.contains
      "gcloud alpha services vpc-peerings operations wait operations/pr-7"
      line.
Proof.
  destruct (C2_async_prints_wait_command_and_returns
              (demo (Some "my-project"))
              (demo_args "10.197.0.0/20,10.198.0.0/20" true) 0
              "my-project" "projects/my-project" 424242%Z 1
              {| demo_name := "operations/pr-7"; demo_done := false |} 2
              eq_refl (demo_resolves 0) eq_refl)
    as (line & Hrun & _ & Hcontains & _).
  exists line. split; [exact Hrun|exact Hcontains].
Defined.

(** C3.  Without [--async], once the peering-connect request has returned
    an operation, the command polls that operation, by its name, with
    [peering.WaitOperation]; the operation the poll returns is in a terminal
    state and is what the command hands to [services_util.PrintOperation],
    whose outcome is the command's.  (If the poll raises, the command raises
    the same and prints nothing.) *)
Theorem C3_sync_polls_then_prints
  {W X ProjectRef Project Operation : Type}
  (svc : Services W X ProjectRef Project Operation)
  (terminal : Operation -> bool) (args : Namespace)
  (w : W) (project_id : string) (ref : ProjectRef) (project : Project)
  (w2 : W) (op : Operation) (w3 : W) :
  async args = false ->
  polls_to_terminal svc terminal ->
  resolves svc w project_id ref project w2 ->
  peering_answer svc args project w2 = (Returns op, w3) ->
  match WaitOperation svc (name svc op) w3 with
  | (Returns final, w4) =>
      terminal final = true /\
      invoke_Run svc args w =
        (fst (PrintOperation svc final w4),
         Build_State (snd (PrintOperation svc final w4))
           [EvParseProject project_id; EvProjectsGet ref;
            peer_request svc args project;
            EvWaitOperation (name svc op); EvPrintOperation final])
  | (Raises e, w4) =>
      invoke_Run svc args w =
        (Raises e,
         Build_State w4
           [EvParseProject project_id; EvProjectsGet ref;
            peer_request svc args project; EvWaitOperation (name svc op)])
  end.
Proof.
  intros Hsync Hpoll Hres Hanswer.
  rewrite (Run_resolved svc args w project_id ref project w2 Hres).
  rewrite Hanswer, Hsync.
  destruct (WaitOperation svc (name svc op) w3) as [[final|e] w4] eqn:Hwait;
    [|reflexivity].
  split; [now apply (Hpoll _ _ _ _ Hwait)|reflexivity].
Qed.

Lemma demo_polls_to_terminal (active : option string) :
  polls_to_terminal (demo active) demo_done.
Proof. intros op_name w op w' [= <- _]. reflexivity. Defined.

Lemma C3_sync_polls_then_prints_witness :
  invoke_Run (demo (Some "my-project"))
    (demo_args "10.197.0.0/20,10.198.0.0/20" false) 0 =
  (Returns tt,
   Build_State 3
     [EvParseProject "my-project"; EvProjectsGet "projects/my-project";
      EvPeerApiCall 424242%Z "your-service" "my-network"
        ["10.197.0.0/20"; "10.198.0.0/20"];
      EvWaitOperation "operations/pr-7";
      EvPrintOperation
        {| demo_name := "operations/pr-7"; demo_done := true |}]).
Proof.
  apply (C3_sync_polls_then_prints (demo (Some "my-project")) demo_done
           (demo_args "10.197.0.0/20,10.198.0.0/20" false) 0
           "my-project" "projects/my-project" 424242%Z 1
           {| demo_name := "operations/pr-7"; demo_done := false |} 2
           eq_refl (demo_polls_to_terminal _) (demo_resolves 0) eq_refl).
Defined.

(** C8.  With [--async] the command never checks on the operation: the log
    holds no poll and no print of an operation, and the outcome, the world
    it leaves and the log are the same whatever [peering.WaitOperation] and
    [services_util.PrintOperation] would have answered -- so a failure of
    the operation cannot show in this invocation. *)
Theorem C8_async_never_checks_operation
  {W X ProjectRef Project Operation : Type}
  (svc : Services W X ProjectRef Project Operation) (args : Namespace)
  (w : W)
  (wait : string -> W -> Outcome X Operation * W)
  (print : Operation -> W -> Outcome X unit * W) :
  async args = true ->
  invoke_Run (with_status_checks svc wait print) args w =
    invoke_Run svc args w /\
  forallb (fun ev => negb (is_status_check ev))
    (log (snd (invoke_Run svc args w))) = true.
Proof.
  intros Hasync. run_command. rewrite Hasync.
  destruct (core_project svc w) as [project_id|]; step;
    [|split; reflexivity].
  destruct (ParseProject svc project_id w) as [[ref|e] w1]; step;
    [|split; reflexivity].
  destruct (projects_api_Get svc ref w1) as [[project|e] w2]; step;
    [|split; reflexivity].
  destruct (PeerApiCall svc (projectNumber svc project) (service args)
              (network args) (PyStr.split "," (reserved_ranges args)) w2)
    as [[op|e] w3]; step; split; reflexivity.
Qed.

Lemma C8_async_never_checks_operation_witness :
  invoke_Run
    (with_status_checks (demo (Some "my-project"))
       (fun _ w => (Raises (Remote "operation failed"), w))
       (fun _ w => (Raises (Remote "operation failed"), w)))
    (demo_args "10.197.0.0/20" true) 0 =
  invoke_Run (demo (Some "my-project")) (demo_args "10.197.0.0/20" true) 0.
Proof.
  apply (C8_async_never_checks_operation (demo (Some "my-project"))
           (demo_args "10.197.0.0/20" true) 0 _ _ eq_refl).
Defined.

(** ** Project resolution and the request *)

(** C4.  When the project-number lookup raises, the command raises the same
    error, in the state the lookup left, and no peering-connect request has
    been made. *)
Theorem C4_lookup_failure_propagates
  {W X ProjectRef Project Operation : Type}
  (svc : Services W X ProjectRef Project Operation) (args : Namespace)
  (w : W) (project_id : string) (e : Exn X)
  (st' : State W ProjectRef Operation) :
  core_project svc w = Some project_id ->
  _GetProjectNumber svc project_id (Build_State w []) = (Raises e, st') ->
  invoke_Run svc args w = (Raises e, st') /\
  peer_requests (log st') = [] /\
  peer_requests (log (snd (invoke_Run svc args w))) = [].
Proof.
  intros Hsome Hlookup.
  rewrite (Run_lookup_raises svc args w project_id e st' Hsome Hlookup).
  destruct (_GetProjectNumber_log svc project_id w _ _ Hlookup) as [Hnone _].
  repeat split; assumption.
Qed.

Lemma C4_lookup_failure_propagates_witness :
  invoke_Run (demo (Some "ghost")) (demo_args "10.197.0.0/20" false) 0 =
  (Raises (Remote "NOT_FOUND"),
   Build_State 1 [EvParseProject "ghost"; EvProjectsGet "projects/ghost"]).
Proof.
  apply (C4_lookup_failure_propagates (demo (Some "ghost"))
           (demo_args "10.197.0.0/20" false) 0 "ghost"
           (Remote "NOT_FOUND")
           (Build_State 1
              [EvParseProject "ghost"; EvProjectsGet "projects/ghost"])
           eq_refl eq_refl).
Defined.



(** C6.  When no active project is set, the command raises the
    configuration error of the property store, and nothing has been called:
    no project lookup, no peering-connect request, and the world is
    untouched. *)
Theorem C6_unset_project_fails_first
  {W X ProjectRef Project Operation : Type}
  (svc : Services W X ProjectRef Project Operation) (args : Namespace)
  (w : W) :
  core_project svc w = None ->
  invoke_Run svc args w =
    (Raises (RequiredPropertyError "project"), Build_State w []) /\
  parsed_projects (log (snd (invoke_Run svc args w))) = [] /\
  project_lookups (log (snd (invoke_Run svc args w))) = [] /\
  peer_requests (log (snd (invoke_Run svc args w))) = [].
Proof.
  intros Hnone. rewrite (Run_unset svc args w Hnone).
  repeat split; reflexivity.
Qed.

Lemma C6_unset_project_fails_first_witness :
  invoke_Run (demo None) (demo_args "10.197.0.0/20" false) 0 =
  (Raises (RequiredPropertyError "project"), Build_State 0 []).
Proof.
  apply (C6_unset_project_fails_first (demo None)
           (demo_args "10.197.0.0/20" false) 0 eq_refl).
Defined.

(** ** The required flags *)

Lemma missing_required_Args (cmdline : CommandLine) :
  missing_required (Args []) cmdline =
  if negb (given cmdline "--network") then
    Some {| flag := "--network"; metavar := Some "NETWORK";
            required := true; store_true := false; help := _NETWORK_HELP |}
  else if negb (given cmdline "--service") then
    Some {| flag := "--service"; metavar := Some "SERVICE";
            required := true; store_true := false; help := _SERVICE_HELP |}
  else if negb (given cmdline "--reserved-ranges") then
    Some {| flag := "--reserved-ranges"; metavar := Some "RESERVED_RANGES";
            required := true; store_true := false;
            help := _RESERVED_RANGES_HELP |}
  else None.
Proof.
  unfold missing_required, Args, add_argument, ASYNC_FLAG_AddToParser.
  cbn -[given].
  destruct (given cmdline "--network"); [|reflexivity].
  destruct (given cmdline "--service"); [|reflexivity].
  destruct (given cmdline "--reserved-ranges"); reflexivity.
Qed.

(** C7.  Each of [--network], [--service] and [--reserved-ranges] is
    declared required by [Args]; a command line that omits one of them
    fails argument validation, on one of these three flags, and [Run] has
    not started: nothing has been called, no project lookup and no
    peering-connect request. *)
Theorem C7_missing_required_flag_fails_first
  {W X ProjectRef Project Operation : Type}
  (svc : Services W X ProjectRef Project Operation)
  (cmdline : CommandLine) (w : W) (omitted : string) :
  In omitted ["--network"; "--service"; "--reserved-ranges"] ->
  given cmdline omitted = false ->
  (exists a, In a (Args []) /\ flag a = omitted /\ required a = true) /\
  exists reported,
    In reported ["--network"; "--service"; "--reserved-ranges"] /\
    given cmdline reported = false /\
    execute svc cmdline w =
      (Raises (ArgumentError reported), Build_State w []).
Proof.
  intros Hin Hmissing. split.
  - destruct Hin as [<-|[<-|[<-|[]]]]; eexists.
    + split; [left; reflexivity|split; reflexivity].
    + split; [right; left; reflexivity|split; reflexivity].
    + split; [right; right; left; reflexivity|split; reflexivity].
  - unfold execute. rewrite missing_required_Args.
    destruct (given cmdline "--network") eqn:Hn;
      [|exists "--network"; cbn; auto].
    destruct (given cmdline "--service") eqn:Hs;
      [|exists "--service"; cbn; auto].
    destruct (given cmdline "--reserved-ranges") eqn:Hr;
      [|exists "--reserved-ranges"; cbn; auto].
    exfalso. destruct Hin as [<-|[<-|[<-|[]]]]; congruence.
Qed.

Lemma C7_missing_required_flag_fails_first_witness :
  execute (demo (Some "my-project"))
    [("--network", Some "my-network");
     ("--reserved-ranges", Some "10.197.0.0/20")] 0 =
  (Raises (ArgumentError "--service"), Build_State 0 []).
Proof.
  destruct (C7_missing_required_flag_fails_first (demo (Some "my-project"))
              [("--network", Some "my-network");
               ("--reserved-ranges", Some "10.197.0.0/20")] 0 "--service"
              (or_intror (or_introl eq_refl)) eq_refl)
    as (_ & reported & _ & Hnot_given & Hexec).
  destruct (String.eqb_spec reported "--service") as [->|Hother].
  - exact Hexec.
  - rewrite Hexec. vm_compute in Hexec. congruence.
Defined.

(** The empty string is a value like any other for the parser: a command
    line that gives the three flags passes validation and reaches [Run]. *)
Lemma execute_all_given
  {W X ProjectRef Project Operation : Type}
  (svc : Services W X ProjectRef Project Operation)
  (cmdline : CommandLine) (w : W) :
  given cmdline "--network" = true ->
  given cmdline "--service" = true ->
  given cmdline "--reserved-ranges" = true ->
  execute svc cmdline w = invoke_Run svc (namespace_of cmdline) w.
Proof.
  intros Hn Hs Hr. unfold execute. rewrite missing_required_Args.
  now rewrite Hn, Hs, Hr.
Qed.

(** ** Further properties of the command *)

(** Case analysis on everything the collaborators may answer. *)
Ltac answers :=
  repeat (step;
    match goal with
    | |- context [core_project ?s ?w] =>
        destruct (core_project s w) as [?project_id|] eqn:?Hproject
    | |- context [ParseProject ?s ?i ?w] =>
        destruct (ParseProject s i w) as [[?ref|?e] ?w1] eqn:?Hparse
    | |- context [projects_api_Get ?s ?r ?w] =>
        destruct (projects_api_Get s r w) as [[?project|?e] ?w2] eqn:?Hget
    | |- context [PeerApiCall ?s ?n ?sv ?nw ?rs ?w] =>
        destruct (PeerApiCall s n sv nw rs w) as [[?op|?e] ?w3] eqn:?Hpeer
    | |- context [WaitOperation ?s ?n ?w] =>
        destruct (WaitOperation s n w) as [[?final|?e] ?w4] eqn:?Hwait
    | |- context [PrintOperation ?s ?o ?w] =>
        destruct (PrintOperation s o w) as [[[]|?e] ?w5] eqn:?Hprint
    end).

Lemma split_append (sep : ascii) (s t : string) :
  PyStr.split sep (s ++ String sep t) =
  (PyStr.split sep s ++ PyStr.split sep t)%list.
Proof.
  induction s as [|c rest IH]; simpl.
  - now rewrite Ascii.eqb_refl.
  - destruct (Ascii.eqb c sep) eqn:Hc.
    + now rewrite IH.
    + rewrite IH.
      destruct (PyStr.split sep rest) as [|piece pieces] eqn:E;
        [now apply split_nonempty in E|reflexivity].
Qed.

Lemma append_cancel (p a b : string) : p ++ a = p ++ b -> a = b.
Proof.
  induction p as [|c p IH]; simpl; [trivial|].
  intros [= H]. now apply IH.
Qed.

(** A run that returns went through a resolved project. *)
Lemma Run_returns_resolved
  {W X ProjectRef Project Operation : Type}
  (svc : Services W X ProjectRef Project Operation) (args : Namespace)
  (w : W) (st' : State W ProjectRef Operation) :
  invoke_Run svc args w = (Returns tt, st') ->
  exists project_id ref project w2,
    resolves svc w project_id ref project w2.
Proof.
  run_command.
  destruct (core_project svc w) as [project_id|] eqn:Hsome; step;
    [|discriminate].
  destruct (ParseProject svc project_id w) as [[ref|e] w1] eqn:Hparse; step;
    [|discriminate].
  destruct (projects_api_Get svc ref w1) as [[project|e] w2] eqn:Hget; step;
    [|discriminate].
  intros _. exists project_id, ref, project, w2.
  split; [assumption|]. exists w1. now split.
Qed.

(** X1.  When the identifier of the active project does not parse, the
    command raises what [ParseProject] raised and stops there: no project
    lookup and no peering-connect request go out. *)
Theorem X1_parse_failure_stops_before_lookup
  {W X ProjectRef Project Operation : Type}
  (svc : Services W X ProjectRef Project Operation) (args : Namespace)
  (w : W) (project_id : string) (e : Exn X) (w1 : W) :
  core_project svc w = Some project_id ->
  ParseProject svc project_id w = (Raises e, w1) ->
  invoke_Run svc args w =
    (Raises e, Build_State w1 [EvParseProject project_id]) /\
  project_lookups (log (snd (invoke_Run svc args w))) = [] /\
  peer_requests (log (snd (invoke_Run svc args w))) = [].
Proof.
  intros Hsome Hparse.
  assert (Hrun : invoke_Run svc args w =
                 (Raises e, Build_State w1 [EvParseProject project_id])).
  { run_command. rewrite Hsome. step. now rewrite Hparse. }
  rewrite Hrun. repeat split; reflexivity.
Qed.

(** X2.  When the peering-connect request raises, the command raises the
    same, with or without [--async]: no status line is printed, the
    operation is neither polled nor printed, and the world is the one the
    request left. *)
Theorem X2_request_failure_propagates
  {W X ProjectRef Project Operation : Type}
  (svc : Services W X ProjectRef Project Operation) (args : Namespace)
  (w : W) (project_id : string) (ref : ProjectRef) (project : Project)
  (w2 : W) (e : Exn X) (w3 : W) :
  resolves svc w project_id ref project w2 ->
  peering_answer svc args project w2 = (Raises e, w3) ->
  invoke_Run svc args w =
    (Raises e,
     Build_State w3
       [EvParseProject project_id; EvProjectsGet ref;
        peer_request svc args project]) /\
  status_lines (log (snd (invoke_Run svc args w))) = [] /\
  polled (log (snd (invoke_Run svc args w))) = [] /\
  printed (log (snd (invoke_Run svc args w))) = [].
Proof.
  intros Hres Hanswer.
  rewrite (Run_resolved svc args w project_id ref project w2 Hres), Hanswer.
  repeat split; reflexivity.
Qed.

(** X3.  Whatever the collaborators answer, the calls they really receive
    in one invocation are the calls of the log, no more and no fewer, and
    they follow the text of [Run]: an initial part of parse, lookup,
    request, and then the status line (only with [--async]) or poll and
    print (only without).  So each collaborator is applied at most once:
    nothing is retried.  (Keeping the record changes neither the outcome nor
    the world.) *)
Theorem X3_calls_in_order_at_most_once
  {W X ProjectRef Project Operation : Type}
  (svc : Services W X ProjectRef Project Operation) (args : Namespace)
  (w : W) :
  fst (invoke_Run (recording svc) args (w, [])) =
    fst (invoke_Run svc args w) /\
  fst (world (snd (invoke_Run (recording svc) args (w, [])))) =
    world (snd (invoke_Run svc args w)) /\
  real_calls svc args w =
    service_calls (log (snd (invoke_Run svc args w))) /\
  run_shape (async args) (log (snd (invoke_Run svc args w))) = true /\
  (length (parsed_projects (real_calls svc args w)) <= 1)%nat /\
  (length (project_lookups (real_calls svc args w)) <= 1)%nat /\
  (length (peer_requests (real_calls svc args w)) <= 1)%nat /\
  (length (polled (real_calls svc args w)) <= 1)%nat /\
  (length (printed (real_calls svc args w)) <= 1)%nat.
Proof.
  unfold real_calls, recording. run_command.
  destruct (async args); answers; step; repeat split; auto.
Qed.

Lemma strict_demo_resolves (w : nat) :
  resolves (strict_demo (Some "my-project")) w "my-project"
    "projects/my-project" 424242%Z (S w).
Proof. split; [reflexivity|]. exists w. split; reflexivity. Defined.

Lemma X1_parse_failure_stops_before_lookup_witness :
  invoke_Run (strict_demo (Some "")) (demo_args "10.197.0.0/20" false) 0 =
  (Raises (Remote "INVALID_PROJECT"), Build_State 0 [EvParseProject ""]).
Proof.
  apply (X1_parse_failure_stops_before_lookup (strict_demo (Some ""))
           (demo_args "10.197.0.0/20" false) 0 "" (Remote "INVALID_PROJECT")
           0 eq_refl eq_refl).
Defined.

Lemma X2_request_failure_propagates_witness :
  invoke_Run (strict_demo (Some "my-project"))
    (demo_args "10.197.0.0/20," true) 0 =
  (Raises (Remote "INVALID_ARGUMENT"),
   Build_State 2
     [EvParseProject "my-project"; EvProjectsGet "projects/my-project";
      EvPeerApiCall 424242%Z "your-service" "my-network"
        ["10.197.0.0/20"; ""]]).
Proof.
  apply (X2_request_failure_propagates (strict_demo (Some "my-project"))
           (demo_args "10.197.0.0/20," true) 0 "my-project"
           "projects/my-project" 424242%Z 1 (Remote "INVALID_ARGUMENT") 2
           (strict_demo_resolves 0) eq_refl).
Defined.

(** X4.  With [--async] the status line is printed exactly when the command
    succeeds: a run that returns has printed one line, a run that raises has
    printed none. *)
Theorem X4_async_line_iff_success
  {W X ProjectRef Project Operation : Type}
  (svc : Services W X ProjectRef Project Operation) (args : Namespace)
  (w : W) :
  async args = true ->
  match fst (invoke_Run svc args w) with
  | Returns _ =>
      exists line, status_lines (log (snd (invoke_Run svc args w))) = [line]
  | Raises _ => status_lines (log (snd (invoke_Run svc args w))) = []
  end.
Proof.
  intros Hasync. run_command. rewrite Hasync.
  answers; step; try reflexivity. eexists. reflexivity.
Qed.

Lemma X4_async_line_iff_success_witness :
  status_lines
    (log (snd (invoke_Run (strict_demo (Some "my-project"))
                 (demo_args "10.197.0.0/20,,10.198.0.0/20" true) 0))) = [].
Proof.
  apply (X4_async_line_iff_success (strict_demo (Some "my-project"))
           (demo_args "10.197.0.0/20,,10.198.0.0/20" true) 0 eq_refl).
Defined.

(** X5.  Without [--async] no error of the poll or of the printer is
    swallowed: a run that returns has had its operation polled, by its name,
    with the poll returning, and has had the polled operation printed, with
    the printer returning; the world it leaves is the printer's.  No status
    line is printed on this path. *)
Theorem X5_sync_success_needs_poll_and_print
  {W X ProjectRef Project Operation : Type}
  (svc : Services W X ProjectRef Project Operation) (args : Namespace)
  (w : W) (st' : State W ProjectRef Operation) :
  async args = false ->
  invoke_Run svc args w = (Returns tt, st') ->
  exists project_id ref project w2 op w3 final w4,
    resolves svc w project_id ref project w2 /\
    peering_answer svc args project w2 = (Returns op, w3) /\
    WaitOperation svc (name svc op) w3 = (Returns final, w4) /\
    PrintOperation svc final w4 = (Returns tt, world st') /\
    polled (log st') = [name svc op] /\
    printed (log st') = [final] /\
    status_lines (log st') = [].
Proof.
  intros Hsync Hrun.
  destruct (Run_returns_resolved svc args w st' Hrun)
    as (project_id & ref & project & w2 & Hres).
  rewrite (Run_resolved svc args w project_id ref project w2 Hres) in Hrun.
  rewrite Hsync in Hrun.
  destruct (peering_answer svc args project w2) as [[op|e] w3] eqn:Hanswer;
    [|discriminate].
  destruct (WaitOperation svc (name svc op) w3) as [[final|e] w4] eqn:Hwait;
    [|discriminate].
  destruct (PrintOperation svc final w4) as [[[]|e] w5] eqn:Hprint;
    [|discriminate].
  injection Hrun as <-.
  exists project_id, ref, project, w2, op, w3, final, w4.
  split; [exact Hres|]. split; [exact Hanswer|].
  split; [exact Hwait|]. split; [exact Hprint|].
  repeat split.
Qed.

Lemma X5_sync_success_needs_poll_and_print_witness :
  exists op w3 final w4,
    WaitOperation (demo (Some "my-project"))
      (name (demo (Some "my-project")) op) w3 = (Returns final, w4) /\
    PrintOperation (demo (Some "my-project")) final w4 = (Returns tt, 3).
Proof.
  destruct (X5_sync_success_needs_poll_and_print (demo (Some "my-project"))
              (demo_args "10.197.0.0/20" false) 0
              (Build_State 3
                 [EvParseProject "my-project";
                  EvProjectsGet "projects/my-project";
                  EvPeerApiCall 424242%Z "your-service" "my-network"
                    ["10.197.0.0/20"];
                  EvWaitOperation "operations/pr-7";
                  EvPrintOperation
                    {| demo_name := "operations/pr-7"; demo_done := true |}])
              eq_refl eq_refl)
    as (project_id & ref & project & w2 & op & w3 & final & w4
        & _ & _ & Hwait & Hprint & _).
  exists op, w3, final, w4. split; [exact Hwait|exact Hprint].
Defined.

(** X6.  The arguments are not looked at before the project is resolved:
    when it cannot be (no active project, an identifier that does not parse,
    a lookup that raises), outcome, world and log are the same whatever
    [--network], [--service], [--reserved-ranges] and [--async] hold. *)
Theorem X6_arguments_unread_until_resolved
  {W X ProjectRef Project Operation : Type}
  (svc : Services W X ProjectRef Project Operation)
  (args args' : Namespace) (w : W) :
  (forall project_id ref project w2,
      ~ resolves svc w project_id ref project w2) ->
  invoke_Run svc args w = invoke_Run svc args' w.
Proof.
  intros Hnot. run_command.
  destruct (core_project svc w) as [project_id|] eqn:Hsome; step;
    [|reflexivity].
  destruct (ParseProject svc project_id w) as [[ref|e] w1] eqn:Hparse; step;
    [|reflexivity].
  destruct (projects_api_Get svc ref w1) as [[project|e] w2] eqn:Hget; step;
    [|reflexivity].
  exfalso. apply (Hnot project_id ref project w2).
  split; [assumption|]. exists w1. now split.
Qed.

Lemma X6_arguments_unread_until_resolved_witness :
  invoke_Run (demo None) (demo_args "10.197.0.0/20" false) 0 =
  invoke_Run (demo None) (demo_args "not a range" true) 0.
Proof.
  apply (X6_arguments_unread_until_resolved (demo None)
           (demo_args "10.197.0.0/20" false)
           (demo_args "not a range" true) 0).
  intros project_id ref project w2 (Hsome & _). discriminate Hsome.
Defined.

(** X7.  [--async] changes nothing of what is asked of the services: with
    the flag set or not, the collaborators really receive the same parse,
    the same lookup and the same peering-connect request, in that order;
    and once the project is resolved the request is the one application of
    [peering.PeerApiCall] to the project number, the service, the network
    and the split ranges, in the world the lookup left -- the flag only
    chooses what is done with its answer. *)
Theorem X7_async_does_not_change_the_request
  {W X ProjectRef Project Operation : Type}
  (svc : Services W X ProjectRef Project Operation) (args : Namespace)
  (is_async : bool) (w : W) :
  filter (fun ev => negb (is_status_check ev))
    (real_calls svc (with_async args is_async) w) =
  filter (fun ev => negb (is_status_check ev)) (real_calls svc args w) /\
  forall project_id ref project w2,
    resolves svc w project_id ref project w2 ->
    invoke_Run svc (with_async args is_async) w =
      match
        PeerApiCall svc (projectNumber svc project) (service args)
          (network args) (PyStr.split "," (reserved_ranges args)) w2
      with
      | (Raises e, w3) =>
          (Raises e,
           Build_State w3 (request_log svc args project_id ref project))
      | (Returns op, w3) =>
          if is_async then
            (Returns tt,
             Build_State w3
               (request_log svc args project_id ref project
                ++ [EvStatusPrint (async_line (name svc op))]))
          else
            match WaitOperation svc (name svc op) w3 with
            | (Raises e, w4) =>
                (Raises e,
                 Build_State w4
                   (request_log svc args project_id ref project
                    ++ [EvWaitOperation (name svc op)]))
            | (Returns final, w4) =>
                (fst (PrintOperation svc final w4),
                 Build_State (snd (PrintOperation svc final w4))
                   (request_log svc args project_id ref project
                    ++ [EvWaitOperation (name svc op);
                        EvPrintOperation final]))
            end
      end.
Proof.
  split.
  - unfold real_calls, recording. run_command.
    destruct (core_project svc w) as [project_id|]; step; [|reflexivity].
    destruct (ParseProject svc project_id w) as [[ref|e] w1]; step;
      [|reflexivity].
    destruct (projects_api_Get svc ref w1) as [[project|e] w2]; step;
      [|reflexivity].
    destruct (PeerApiCall svc (projectNumber svc project) (service args)
                (network args) (PyStr.split "," (reserved_ranges args)) w2)
      as [[op|e] w3]; step; [|reflexivity].
    destruct is_async, (async args); answers; step; reflexivity.
  - intros project_id ref project w2 Hres.
    exact (Run_resolved svc (with_async args is_async) w project_id ref
             project w2 Hres).
Qed.

Lemma X7_async_does_not_change_the_request_witness :
  invoke_Run (strict_demo (Some "my-project"))
    (with_async (demo_args "10.197.0.0/20,," false) true) 0 =
  (Raises (Remote "INVALID_ARGUMENT"),
   Build_State 2
     [EvParseProject "my-project"; EvProjectsGet "projects/my-project";
      EvPeerApiCall 424242%Z "your-service" "my-network"
        ["10.197.0.0/20"; ""; ""]]).
Proof.
  destruct (X7_async_does_not_change_the_request
              (strict_demo (Some "my-project"))
              (demo_args "10.197.0.0/20,," false) true 0)
    as (_ & Hrun).
  rewrite (Hrun "my-project" "projects/my-project" 424242%Z 1
             (strict_demo_resolves 0)).
  reflexivity.
Defined.

(** X8.  Round trip with [join]: when [--reserved-ranges] is a non-empty
    list of comma-free ranges joined with commas, [peering.PeerApiCall] is
    handed exactly that list, in order, with its repetitions and its empty
    entries: the command is decided by the answer of the request made with
    that list, and logs it so. *)
Theorem X8_joined_ranges_arrive_unchanged
  {W X ProjectRef Project Operation : Type}
  (svc : Services W X ProjectRef Project Operation) (args : Namespace)
  (ranges : list string)
  (w : W) (project_id : string) (ref : ProjectRef) (project : Project)
  (w2 : W) :
  ranges <> [] ->
  Forall (fun piece => PyStr.occurs "," piece = false) ranges ->
  reserved_ranges args = PyStr.join "," ranges ->
  resolves svc w project_id ref project w2 ->
  invoke_Run svc args w =
    match
      PeerApiCall svc (projectNumber svc project) (service args)
        (network args) ranges w2
    with
    | (Raises e, w3) =>
        (Raises e,
         Build_State w3 (request_log svc args project_id ref project))
    | (Returns op, w3) =>
        if async args then
          (Returns tt,
           Build_State w3
             (request_log svc args project_id ref project
              ++ [EvStatusPrint (async_line (name svc op))]))
        else
          match WaitOperation svc (name svc op) w3 with
          | (Raises e, w4) =>
              (Raises e,
               Build_State w4
                 (request_log svc args project_id ref project
                  ++ [EvWaitOperation (name svc op)]))
          | (Returns final, w4) =>
              (fst (PrintOperation svc final w4),
               Build_State (snd (PrintOperation svc final w4))
                 (request_log svc args project_id ref project
                  ++ [EvWaitOperation (name svc op);
                      EvPrintOperation final]))
          end
    end /\
  peer_requests (log (snd (invoke_Run svc args w))) =
    [(projectNumber svc project, service args, network args, ranges)].
Proof.
  intros Hne Hfree Hjoin Hres.
  rewrite (Run_peer_requests svc args w project_id ref project w2 Hres).
  rewrite (Run_resolved svc args w project_id ref project w2 Hres).
  unfold peering_answer.
  rewrite Hjoin, (split_join "," ranges Hne Hfree).
  split; reflexivity.
Qed.

Lemma X8_joined_ranges_arrive_unchanged_witness :
  invoke_Run (demo (Some "my-project"))
    (demo_args "10.0.0.0/20, 10.0.0.0/20,,10.0.0.0/20" true) 0 =
  (Returns tt,
   Build_State 2
     [EvParseProject "my-project"; EvProjectsGet "projects/my-project";
      EvPeerApiCall 424242%Z "your-service" "my-network"
        ["10.0.0.0/20"; " 10.0.0.0/20"; ""; "10.0.0.0/20"];
      EvStatusPrint (async_line "operations/pr-7")]).
Proof.
  assert (Hne : ["10.0.0.0/20"; " 10.0.0.0/20"; ""; "10.0.0.0/20"] <> [])
    by discriminate.
  assert (Hfree : Forall (fun piece => PyStr.occurs "," piece = false)
                    ["10.0.0.0/20"; " 10.0.0.0/20"; ""; "10.0.0.0/20"])
    by (repeat constructor).
  destruct (X8_joined_ranges_arrive_unchanged (demo (Some "my-project"))
              (demo_args "10.0.0.0/20, 10.0.0.0/20,,10.0.0.0/20" true)
              ["10.0.0.0/20"; " 10.0.0.0/20"; ""; "10.0.0.0/20"]
              0 "my-project" "projects/my-project" 424242%Z 1
              Hne Hfree eq_refl (demo_resolves 0))
    as (Hrun & _).
  rewrite Hrun. reflexivity.
Defined.

(** X9.  Every comma cuts: when [--reserved-ranges] is [a], a comma, [b],
    [peering.PeerApiCall] is handed the ranges of [a] followed by those of
    [b]: the command is decided by the answer of the request made with that
    sequence, and logs it so.  So a trailing comma adds a last, empty range,
    and a leading one a first. *)
Theorem X9_ranges_of_a_comma_b
  {W X ProjectRef Project Operation : Type}
  (svc : Services W X ProjectRef Project Operation) (args : Namespace)
  (a b : string)
  (w : W) (project_id : string) (ref : ProjectRef) (project : Project)
  (w2 : W) :
  reserved_ranges args = a ++ String "," b ->
  resolves svc w project_id ref project w2 ->
  invoke_Run svc args w =
    match
      PeerApiCall svc (projectNumber svc project) (service args)
        (network args) (PyStr.split "," a ++ PyStr.split "," b)%list w2
    with
    | (Raises e, w3) =>
        (Raises e,
         Build_State w3 (request_log svc args project_id ref project))
    | (Returns op, w3) =>
        if async args then
          (Returns tt,
           Build_State w3
             (request_log svc args project_id ref project
              ++ [EvStatusPrint (async_line (name svc op))]))
        else
          match WaitOperation svc (name svc op) w3 with
          | (Raises e, w4) =>
              (Raises e,
               Build_State w4
                 (request_log svc args project_id ref project
                  ++ [EvWaitOperation (name svc op)]))
          | (Returns final, w4) =>
              (fst (PrintOperation svc final w4),
               Build_State (snd (PrintOperation svc final w4))
                 (request_log svc args project_id ref project
                  ++ [EvWaitOperation (name svc op);
                      EvPrintOperation final]))
          end
    end /\
  peer_requests (log (snd (invoke_Run svc args w))) =
    [(projectNumber svc project, service args, network args,
      (PyStr.split "," a ++ PyStr.split "," b)%list)] /\
  (b = "" -> (PyStr.split "," a ++ PyStr.split "," b)%list =
             (PyStr.split "," a ++ [""])%list) /\
  (a = "" -> (PyStr.split "," a ++ PyStr.split "," b)%list =
             "" :: PyStr.split "," b).
Proof.
  intros Hcut Hres.
  rewrite (Run_peer_requests svc args w project_id ref project w2 Hres).
  rewrite (Run_resolved svc args w project_id ref project w2 Hres).
  unfold peering_answer.
  rewrite Hcut, split_append.
  split; [reflexivity|]. split; [reflexivity|].
  split; intros ->; reflexivity.
Qed.

Lemma X9_ranges_of_a_comma_b_witness :
  invoke_Run (strict_demo (Some "my-project"))
    (demo_args "10.197.0.0/20," false) 0 =
  (Raises (Remote "INVALID_ARGUMENT"),
   Build_State 2
     [EvParseProject "my-project"; EvProjectsGet "projects/my-project";
      EvPeerApiCall 424242%Z "your-service" "my-network"
        ["10.197.0.0/20"; ""]]).
Proof.
  destruct (X9_ranges_of_a_comma_b (strict_demo (Some "my-project"))
              (demo_args "10.197.0.0/20," false) "10.197.0.0/20" ""
              0 "my-project" "projects/my-project" 424242%Z 1 eq_refl
              (strict_demo_resolves 0))
    as (Hrun & _).
  rewrite Hrun. reflexivity.
Defined.

(** X10.  The status line of the asynchronous path is the fixed text
    followed by the operation's name, taken as it is (a name that itself
    holds [{0}] is not expanded again); so the line tells operations apart:
    two names give the same line only if they are the same name. *)
Theorem X10_status_line_identifies_operation (op_name op_name' : string) :
  PyStr.format ASYNC_STATUS (PyStr.format OP_WAIT_CMD op_name) =
    ("Asynchronous operation is in progress... Use the following command to wait for its completion:"
     ++ String (ascii_of_nat 10)
          " gcloud alpha services vpc-peerings operations wait ")
    ++ op_name /\
  (PyStr.format ASYNC_STATUS (PyStr.format OP_WAIT_CMD op_name) =
     PyStr.format ASYNC_STATUS (PyStr.format OP_WAIT_CMD op_name') ->
   op_name = op_name').
Proof.
  assert (Hline : forall n,
             PyStr.format ASYNC_STATUS (PyStr.format OP_WAIT_CMD n) =
             ("Asynchronous operation is in progress... Use the following command to wait for its completion:"
              ++ String (ascii_of_nat 10)
                   " gcloud alpha services vpc-peerings operations wait ")
             ++ n).
  { intros n. rewrite format_ASYNC_STATUS. reflexivity. }
  split; [apply Hline|].
  rewrite !Hline. apply append_cancel.
Qed.

Lemma X10_status_line_identifies_operation_witness :
  PyStr.format ASYNC_STATUS (PyStr.format OP_WAIT_CMD "operations/{0}") =
  ("Asynchronous operation is in progress... Use the following command to wait for its completion:"
   ++ String (ascii_of_nat 10)
        " gcloud alpha services vpc-peerings operations wait ")
  ++ "operations/{0}".
Proof.
  apply (X10_status_line_identifies_operation "operations/{0}"
           "operations/{0}").
Defined.
